(** * Webhook Path Choice node: dynamic output lanes, suspension and dispatch

    A shallow embedding of [nodes/WebhookPathChoice.node.ts]:

    - [configuredOutputs], the build-time function from the node parameters
      to the ordered output lanes;
    - [execute], the run-start entry point, which builds the approval
      request, logs it and parks the execution;
    - [webhook], the resume entry point, which routes the callback body to
      the output slot of the matching action.

    The two entry points act on the host through [this]; their effects (log
    lines, the wait marker, thrown errors) are threaded through a small
    state-and-exception monad. *)

From Stdlib Require Import ZArith String Ascii DecimalString DecimalNat DecimalFacts.
From stdpp Require Import base list strings.

Set Warnings "-register-all".
Local Open Scope string_scope.
Local Open Scope Z_scope.

(** ** JavaScript values *)

(** Values carried by parameters and by the callback body. Objects keep
    their keys in insertion order. The numbers represented are the integers
    a double holds exactly and prints digit for digit (magnitude at most
    2^53); fractions and larger numbers are not represented. The node only
    tests a number for zero and prints it, and the properties below that
    state a printed message state it for string values. *)
Inductive JSON : Type :=
  | JNull
  | JBool (b : bool)
  | JNumber (n : Z)
  | JString (s : string)
  | JArray (elements : list JSON)
  | JObject (fields : list (string * JSON)).

Definition IDataObject : Type := list (string * JSON).

(** Property read [o.k]; [None] stands for [undefined]. The keys of an
    object are distinct, so the first entry for [k] is the only one. *)
Fixpoint js_get (o : IDataObject) (k : string) : option JSON :=
  match o with
  | [] => None
  | (k', v) :: rest => if String.eqb k' k then Some v else js_get rest k
  end.

(** ToBoolean, as used by [!x] and [x || y]. *)
Definition truthy (v : option JSON) : bool :=
  match v with
  | None => false
  | Some JNull => false
  | Some (JBool b) => b
  | Some (JNumber n) => negb (n =? 0)
  | Some (JString s) => negb (String.eqb s "")
  | Some (JArray _) => true
  | Some (JObject _) => true
  end.

(** [s === v] for a string [s]: no coercion, so only an equal string
    matches. *)
Definition strict_equals (s : string) (v : option JSON) : bool :=
  match v with
  | Some (JString t) => String.eqb s t
  | _ => false
  end.

Definition number_toString (n : Z) : string :=
  NilZero.string_of_int (Z.to_int n).

(** ToString of a value, as performed by a template literal. *)
Fixpoint js_toString (v : JSON) : string :=
  match v with
  | JNull => "null"
  | JBool true => "true"
  | JBool false => "false"
  | JNumber n => number_toString n
  | JString s => s
  | JArray l =>
      let element (x : JSON) : string :=
        match x with JNull => "" | _ => js_toString x end in
      (fix join (l : list JSON) : string :=
         match l with
         | [] => ""
         | x :: t =>
             match t with
             | [] => element x
             | _ :: _ => element x +:+ "," +:+ join t
             end
         end) l
  | JObject _ => "[object Object]"
  end.

Definition template_value (v : option JSON) : string :=
  match v with
  | None => "undefined"
  | Some x => js_toString x
  end.

(** [Array.prototype.findIndex]: the first position whose element
    satisfies [p], or [-1]. *)
Definition findIndex {A : Type} (p : A → bool) (l : list A) : Z :=
  match list_find (λ x, Is_true (p x)) l with
  | Some (i, _) => Z.of_nat i
  | None => -1
  end.

(** ** Node data *)

(** One entry of the [actions] fixed collection. The schema declares the
    string field [name], and names are strings throughout: a configuration
    that stores a value of another type under [name] is not represented.
    Stored entries may carry further keys (the default value has
    [action_is_destructive] and [gather_custom_feedback_response]). *)
Record ActionParam : Type := {
  name : string;
  other_fields : IDataObject;
}.

Record ActionsCollection : Type := {
  action : option (list ActionParam);
}.

Record INodeParameters : Type := {
  subject : string;
  message : string;
  actions : option ActionsCollection;
}.

Record INode : Type := {
  id : string;
  parameters : INodeParameters;
}.

Inductive NodeConnectionType : Type := Main.

Record Lane : Type := {
  type : NodeConnectionType;
  displayName : string;
}.

Record PairedItem : Type := { item : Z }.

Record INodeExecutionData : Type := {
  json : IDataObject;
  pairedItem : option PairedItem;
}.

Record IWebhookResponseData : Type := {
  webhookResponse : string;
  workflowData : list (list INodeExecutionData);
}.

(** [getNodeParameter('actions.action', ..., fallback)]. The parameters of
    a node are the values as the entry points read them, with any expression
    already resolved by the host. The host calls [configuredOutputs] on the
    parameters as written; these are the same names when no name is an
    expression, which the properties relating lane labels to the entry
    points state as a hypothesis. *)
Definition getNodeParameter_actions_action
    (node : INode) (fallback : list ActionParam) : list ActionParam :=
  match actions (parameters node) with
  | Some c =>
      match action c with
      | Some l => l
      | None => fallback
      end
  | None => fallback
  end.

(** ** Host effects *)

Inductive JSError : Type :=
  | NodeOperationError (msg : string)
  | TypeError (msg : string).

Inductive LogLevel : Type := Info | Warn.

(** A log line is [text + JSON.stringify(data)]; the serialised value is
    kept as a value. *)
Record LogEntry : Type := {
  level : LogLevel;
  text : string;
  data : JSON;
}.

Inductive WaitTill : Type := WAIT_INDEFINITELY.

Record Host : Type := {
  logs : list LogEntry;
  waitTill : option WaitTill;
}.

Inductive completion (A : Type) : Type :=
  | Returned (a : A)
  | Thrown (e : JSError).
Arguments Returned {A} a.
Arguments Thrown {A} e.

Definition M (A : Type) : Type := Host → completion A * Host.

Definition ret {A : Type} (a : A) : M A := λ h, (Returned a, h).

Definition throw {A : Type} (e : JSError) : M A := λ h, (Thrown e, h).

Definition bind {A B : Type} (m : M A) (f : A → M B) : M B :=
  λ h,
    match m h with
    | (Returned a, h') => f a h'
    | (Thrown e, h') => (Thrown e, h')
    end.

#[global] Instance M_ret : MRet M := @ret.
#[global] Instance M_bind : MBind M := λ A B f m, bind m f.

Definition logger (lv : LogLevel) (t : string) (d : JSON) : M unit :=
  λ h,
    (Returned tt,
     {| logs := logs h ++ [ {| level := lv; text := t; data := d |} ];
        waitTill := waitTill h |}).

Definition putExecutionToWait (w : WaitTill) : M unit :=
  λ h, (Returned tt, {| logs := logs h; waitTill := Some w |}).

(** ** Output Topology Resolver *)

Definition decimal (index : nat) : string :=
  NilZero.string_of_uint (Nat.to_uint index).

(** [parameters.actions?.action ?? []] *)
Definition actionList (parameters : INodeParameters) : list ActionParam :=
  match actions parameters with
  | Some c => default [] (action c)
  | None => []
  end.

Definition configuredOutputs (parameters : INodeParameters) : list Lane :=
  imap (λ index action,
          {| type := Main;
             displayName :=
               if truthy (Some (JString (name action)))
               then name action
               else "Action " +:+ decimal index |})
       (actionList parameters).

(** ** Suspend/Dispatch Controller *)

(** What both entry points see of the host through [this]. *)
Record FunctionsBase : Type := {
  getNode : INode;
}.

Record IExecuteFunctions : Type := {
  execute_base :> FunctionsBase;
  evaluateExpression : string → Z → string;
  getInputData : list INodeExecutionData;
}.

(** [helpers.returnJsonArray] belongs to the host library, not to this
    node: it is taken as part of [this], and the properties that depend on
    its result say what they require of it. *)
Record IWebhookFunctions : Type := {
  webhook_base :> FunctionsBase;
  getBodyData : IDataObject;
  returnJsonArray : IDataObject → list INodeExecutionData;
}.

Definition SYSTEM_WORKFLOW_UUID : string :=
  "00000000-0000-4000-c025-000000000000".

(** The object literal bound to [requestBody] in [execute]. *)
Definition requestBody (this : IExecuteFunctions) : IDataObject :=
  let subject := subject (parameters (getNode this)) in
  let message := message (parameters (getNode this)) in
  let actions := getNodeParameter_actions_action (getNode this) [] in
  let resumeUrl := evaluateExpression this "{{ $execution?.resumeUrl }}" 0 in
  let nodeId := id (getNode this) in
  [ ("subject", JString subject);
    ("message", JString message);
    ("webhook_url", JString (resumeUrl +:+ "/" +:+ nodeId));
    ("actions", JArray ((λ a, JObject [ ("name", JString (name a)) ]) <$> actions));
    ("account_uuid", JString SYSTEM_WORKFLOW_UUID) ].

Definition execute (this : IExecuteFunctions) : M (list (list INodeExecutionData)) :=
  logger Warn "Starting workflow with arguments:" (JObject (requestBody this));;
  putExecutionToWait WAIT_INDEFINITELY;;
  mret [ getInputData this ].

Definition item_json (d : INodeExecutionData) : JSON :=
  JObject
    (("json", JObject (json d)) ::
     match pairedItem d with
     | Some p => [ ("pairedItem", JObject [ ("item", JNumber (item p)) ]) ]
     | None => []
     end).

Definition workflowData_json (a : list (list INodeExecutionData)) : JSON :=
  JArray ((λ slot, JArray (item_json <$> slot)) <$> a).

Definition dquote : string := String "034"%char EmptyString.

Definition no_action_message : string :=
  "No " +:+ dquote +:+ "action" +:+ dquote +:+ " received.".

Definition unknown_action_message (action : option JSON) : string :=
  "Unknown action: " +:+ template_value action.

Definition webhook (this : IWebhookFunctions) : M IWebhookResponseData :=
  logger Info "Webhook received" (JObject (getBodyData this));;
  let body := getBodyData this in
  let action := js_get body "action" in
  if negb (truthy action) then
    throw (NodeOperationError no_action_message)
  else
    let allActions := getNodeParameter_actions_action (getNode this) [] in
    let index := findIndex (λ a, strict_equals (name a) action) allActions in
    if index <? 0 then
      throw (NodeOperationError (unknown_action_message action))
    else
      let returnArray := (λ _, []) <$> allActions in
      let returnArray := <[Z.to_nat index := returnJsonArray this body]> returnArray in
      match returnArray !! Z.to_nat index with
      | Some (first :: rest) =>
          let first := {| json := json first; pairedItem := Some {| item := 0 |} |} in
          let returnArray := <[Z.to_nat index := first :: rest]> returnArray in
          logger Info "Webhook response: " (workflowData_json returnArray);;
          mret {| webhookResponse := "OK"; workflowData := returnArray |}
      | _ =>
          throw (TypeError "Cannot set properties of undefined (setting 'pairedItem')")
      end.

(** ** Notions used in the statements *)

(** Host state once the callback has been logged. *)
Definition received (this : IWebhookFunctions) (h : Host) : Host :=
  {| logs := logs h ++ [ {| level := Info; text := "Webhook received";
                            data := JObject (getBodyData this) |} ];
     waitTill := waitTill h |}.

(** Host state once the response has been logged too. *)
Definition responded (this : IWebhookFunctions)
    (returnArray : list (list INodeExecutionData)) (h : Host) : Host :=
  {| logs := logs (received this h) ++
             [ {| level := Info; text := "Webhook response: ";
                  data := workflowData_json returnArray |} ];
     waitTill := waitTill h |}.

(** [first.pairedItem = { item: 0 }] *)
Definition paired (first : INodeExecutionData) : INodeExecutionData :=
  {| json := json first; pairedItem := Some {| item := 0 |} |}.

(** One empty slot per configured action, except slot [k]. *)
Definition slots (allActions : list ActionParam) (k : nat)
    (items : list INodeExecutionData) : list (list INodeExecutionData) :=
  <[k := items]> ((λ _, []) <$> allActions).

Definition allActions_of (this : IWebhookFunctions) : list ActionParam :=
  getNodeParameter_actions_action (getNode this) [].

Definition index_of (this : IWebhookFunctions) : Z :=
  findIndex (λ a, strict_equals (name a) (js_get (getBodyData this) "action"))
            (allActions_of this).

(** Every way a callback can end. *)
Inductive webhook_outcome (this : IWebhookFunctions) (h : Host) : Prop :=
  | outcome_no_action :
      truthy (js_get (getBodyData this) "action") = false →
      webhook this h = (Thrown (NodeOperationError no_action_message), received this h) →
      webhook_outcome this h
  | outcome_unknown :
      truthy (js_get (getBodyData this) "action") = true →
      index_of this = -1 →
      webhook this h =
        (Thrown (NodeOperationError
                   (unknown_action_message (js_get (getBodyData this) "action"))),
         received this h) →
      webhook_outcome this h
  | outcome_no_items k :
      truthy (js_get (getBodyData this) "action") = true →
      index_of this = Z.of_nat k →
      returnJsonArray this (getBodyData this) = [] →
      webhook this h =
        (Thrown (TypeError "Cannot set properties of undefined (setting 'pairedItem')"),
         received this h) →
      webhook_outcome this h
  | outcome_dispatch k first rest :
      truthy (js_get (getBodyData this) "action") = true →
      index_of this = Z.of_nat k →
      returnJsonArray this (getBodyData this) = first :: rest →
      webhook this h =
        (Returned {| webhookResponse := "OK";
                     workflowData := slots (allActions_of this) k (paired first :: rest) |},
         responded this (slots (allActions_of this) k (paired first :: rest)) h) →
      webhook_outcome this h.

(** Position [k] holds the first action named [s]. *)
Definition first_named (l : list ActionParam) (k : nat) (s : string) : Prop :=
  (∃ a, l !! k = Some a ∧ name a = s) ∧
  ∀ j b, (j < k)%nat → l !! j = Some b → name b ≠ s.

(** The callback was routed to lane [k]: the entry point returned one slot
    per configured action, slot [k] holds exactly the callback body paired
    with input item 0, and every other slot is empty. *)
Definition dispatched_to (this : IWebhookFunctions) (h : Host) (k : nat) : Prop :=
  ∃ r h',
    webhook this h = (Returned r, h') ∧
    webhookResponse r = "OK" ∧
    length (workflowData r) = length (allActions_of this) ∧
    workflowData r !! k =
      Some [ {| json := getBodyData this; pairedItem := Some {| item := 0 |} |} ] ∧
    ∀ j, j ≠ k → (j < length (allActions_of this))%nat → workflowData r !! j = Some [].

(** ** Sample runs *)

(** What the dispatch properties ask of [returnJsonArray] on the callback
    body, and the helper of the sample callbacks: the body wrapped as one
    item that is not paired yet. *)
Definition wrap_json (d : IDataObject) : list INodeExecutionData :=
  [ {| json := d; pairedItem := None |} ].

Definition mk_action (n : string) : ActionParam :=
  {| name := n; other_fields := [] |}.

Definition node_with (l : list ActionParam) : INode :=
  {| id := "node-1";
     parameters :=
       {| subject := "Deploy v2"; message := "Please review";
          actions := Some {| action := Some l |} |} |}.

Definition callback (l : list ActionParam) (body : IDataObject) : IWebhookFunctions :=
  {| webhook_base := {| getNode := node_with l |};
     getBodyData := body;
     returnJsonArray := wrap_json |}.

Definition idle : Host := {| logs := []; waitTill := None |}.

Definition approve_decline : list ActionParam :=
  [ {| name := "Approve";
       other_fields := [ ("action_is_destructive", JBool false);
                         ("gather_custom_feedback_response", JBool false) ] |};
    {| name := "Decline";
       other_fields := [ ("action_is_destructive", JBool true);
                         ("gather_custom_feedback_response", JBool true) ] |} ].

Definition run_start : IExecuteFunctions :=
  {| execute_base := {| getNode := node_with approve_decline |};
     evaluateExpression := λ _ _, "http://host/webhook-waiting/7";
     getInputData := wrap_json [ ("ticket", JNumber 41) ] |}.

Definition decline_body : IDataObject :=
  [ ("action", JString "Decline"); ("note", JString "too risky") ].

Definition decline_callback : IWebhookFunctions := callback approve_decline decline_body.

Definition approve_callback : IWebhookFunctions :=
  callback approve_decline [ ("action", JString "Approve") ].

Definition oops_callback : IWebhookFunctions :=
  callback approve_decline [ ("note", JString "oops") ].

Definition maybe_callback : IWebhookFunctions :=
  callback approve_decline [ ("action", JString "Maybe") ].

(** One action with an empty name, called back with an empty [action]. *)
Definition unnamed_callback : IWebhookFunctions :=
  callback [ mk_action "" ] [ ("action", JString "") ].

(** No action configured, called back with an empty [action]. *)
Definition no_lane_callback : IWebhookFunctions :=
  callback [] [ ("action", JString "") ].

Definition duplicate_callback : IWebhookFunctions :=
  callback [ mk_action "A"; mk_action "A" ] [ ("action", JString "A") ].

(** ** Facts about the JavaScript primitives *)

Section primitives.
Context {A : Type}.
Implicit Types (p : A → bool) (l : list A) (k : nat).

Lemma findIndex_Some p l k :
  findIndex p l = Z.of_nat k ↔
  ∃ x, l !! k = Some x ∧ p x = true ∧
       ∀ j y, l !! j = Some y → (j < k)%nat → p y = false.
Proof.
  unfold findIndex.
  destruct (list_find _ l) as [[i x]|] eqn:E.
  - apply list_find_Some in E as (Hi & Hp & Hmin). split.
    + intros Hk. assert (i = k) as -> by lia. exists x.
      split; [done|]. split; [by apply Is_true_eq_true|].
      intros j y Hj Hlt. specialize (Hmin j y Hj Hlt).
      by destruct (p y); [destruct Hmin|].
    + intros (x' & Hk & Hp' & Hmin').
      destruct (Nat.lt_trichotomy i k) as [Hlt|[->|Hgt]]; [|done|].
      * rewrite (Hmin' i x Hi Hlt) in Hp. by destruct Hp.
      * destruct (Hmin k x' Hk Hgt). by rewrite Hp'.
  - apply list_find_None in E. split; [lia|].
    intros (x & Hk & Hp & _).
    rewrite Forall_forall in E.
    destruct (E x); [by eapply list_elem_of_lookup_2|by rewrite Hp].
Qed.

Lemma findIndex_None p l :
  findIndex p l = -1 ↔ ∀ x, x ∈ l → p x = false.
Proof.
  unfold findIndex.
  destruct (list_find _ l) as [[i x]|] eqn:E.
  - apply list_find_Some in E as (Hi & Hp & _). split; [lia|].
    intros Hall. rewrite (Hall x) in Hp; [by destruct Hp|].
    by eapply list_elem_of_lookup_2.
  - apply list_find_None in E. split; [|done].
    intros _ x Hx. rewrite Forall_forall in E. specialize (E x Hx).
    destruct (p x); [by destruct E|done].
Qed.

(** [findIndex] yields [-1] or a position of the array. *)
Lemma findIndex_range p l :
  findIndex p l = -1 ∨
  ∃ k, findIndex p l = Z.of_nat k ∧ (k < length l)%nat.
Proof.
  destruct (list_find (λ x, Is_true (p x)) l) as [[i x]|] eqn:E.
  - right. exists i. unfold findIndex. rewrite E. split; [done|].
    apply list_find_Some in E as (Hi & _). by eapply lookup_lt_Some.
  - left. unfold findIndex. by rewrite E.
Qed.
End primitives.

Lemma strict_equals_true s v :
  strict_equals s v = true ↔ v = Some (JString s).
Proof.
  destruct v as [[]|]; simpl; try (split; [discriminate|congruence]).
  rewrite String.eqb_eq. split; congruence.
Qed.

Lemma strict_equals_truthy s v :
  strict_equals s v = true → truthy v = true → s ≠ "".
Proof.
  intros ->%strict_equals_true Ht ->. by simpl in Ht.
Qed.

Lemma truthy_string s : truthy (Some (JString s)) = true ↔ s ≠ "".
Proof.
  simpl. destruct (String.eqb_spec s ""); simpl; split; congruence.
Qed.

(** ** The resolver *)

Example decimal_0 : decimal 0 = "0".
Proof. reflexivity. Qed.

Example decimal_12 : decimal 12 = "12".
Proof. reflexivity. Qed.

Example configuredOutputs_approve_decline :
  configuredOutputs (parameters (node_with approve_decline)) =
  [ {| type := Main; displayName := "Approve" |};
    {| type := Main; displayName := "Decline" |} ].
Proof. reflexivity. Qed.

Example configuredOutputs_unnamed :
  configuredOutputs (parameters (node_with [ mk_action "A"; mk_action ""; mk_action "A" ])) =
  [ {| type := Main; displayName := "A" |};
    {| type := Main; displayName := "Action 1" |};
    {| type := Main; displayName := "A" |} ].
Proof. reflexivity. Qed.

Lemma actionList_configured p l :
  actions p = Some {| action := Some l |} → actionList p = l.
Proof. unfold actionList. by intros ->. Qed.

Lemma configuredOutputs_lookup p i :
  configuredOutputs p !! i =
  (λ a, {| type := Main;
           displayName := if String.eqb (name a) ""
                          then "Action " +:+ decimal i
                          else name a |}) <$> actionList p !! i.
Proof.
  unfold configuredOutputs. rewrite list_lookup_imap.
  destruct (actionList p !! i) as [a|]; simpl; [|done].
  by destruct (String.eqb (name a) "").
Qed.

(** C6. For a configuration whose action list is [l], [configuredOutputs]
    yields exactly [length l] lanes (none for the empty list), and the lane
    at each position [i] belongs to the action at position [i]: it is a main
    connection whose display name is the action's name when that name is not
    empty, and the text [Action i], with [i] in decimal, when it is empty. *)
Theorem configuredOutputs_lanes (p : INodeParameters) (l : list ActionParam) :
  actions p = Some {| action := Some l |} →
  length (configuredOutputs p) = length l ∧
  (l = [] → configuredOutputs p = []) ∧
  ∀ (i : nat) (a : ActionParam),
    l !! i = Some a →
    ∃ lane,
      configuredOutputs p !! i = Some lane ∧
      type lane = Main ∧
      (name a ≠ "" → displayName lane = name a) ∧
      (name a = "" → displayName lane = "Action " +:+ decimal i).
Proof.
  intros Hp. apply actionList_configured in Hp.
  split; [|split].
  - unfold configuredOutputs. by rewrite length_imap, Hp.
  - intros ->. unfold configuredOutputs. by rewrite Hp.
  - intros i a Hi. rewrite configuredOutputs_lookup, Hp, Hi. simpl.
    eexists. split; [done|]. split; [done|]. simpl.
    destruct (String.eqb_spec (name a) ""); split; congruence.
Qed.

Lemma configuredOutputs_lanes_witness :
  length (configuredOutputs (parameters (node_with [ mk_action "A"; mk_action "" ]))) = 2%nat ∧
  ∃ lane,
    configuredOutputs (parameters (node_with [ mk_action "A"; mk_action "" ])) !! 1%nat
      = Some lane ∧
    displayName lane = "Action 1".
Proof.
  pose proof (configuredOutputs_lanes
                (parameters (node_with [ mk_action "A"; mk_action "" ]))
                [ mk_action "A"; mk_action "" ] eq_refl) as (Hlen & _ & Hlane).
  split; [exact Hlen|].
  destruct (Hlane 1%nat (mk_action "") eq_refl) as (lane & Hl & _ & _ & Hd).
  exists lane. split; [exact Hl|]. exact (Hd eq_refl).
Defined.

(** C7. [configuredOutputs] is a function of its argument alone (it takes
    no host context and threads no state), and of the ordered action names
    alone: on two readings of a configuration that list the same names in the
    same order, in particular on the same configuration read twice, it
    yields the same lanes in the same order with the same display names. *)
Theorem configuredOutputs_deterministic (p q : INodeParameters) :
  name <$> actionList p = name <$> actionList q →
  configuredOutputs p = configuredOutputs q.
Proof.
  intros Hnames. apply list_eq. intros i.
  rewrite !configuredOutputs_lookup.
  assert ((name <$> actionList p) !! i = (name <$> actionList q) !! i) as Hi
    by by rewrite Hnames.
  rewrite !list_lookup_fmap in Hi.
  destruct (actionList p !! i) as [a|], (actionList q !! i) as [b|];
    simpl in *; try done.
  by injection Hi as ->.
Qed.

Lemma configuredOutputs_deterministic_witness :
  configuredOutputs (parameters (node_with approve_decline)) =
  configuredOutputs
    {| subject := "Release"; message := "";
       actions := Some {| action := Some [ mk_action "Approve"; mk_action "Decline" ] |} |}.
Proof.
  apply configuredOutputs_deterministic.
  reflexivity.
Defined.

(** ** Run start *)

Example requestBody_run_start :
  requestBody run_start =
  [ ("subject", JString "Deploy v2");
    ("message", JString "Please review");
    ("webhook_url", JString "http://host/webhook-waiting/7/node-1");
    ("actions", JArray [ JObject [ ("name", JString "Approve") ];
                         JObject [ ("name", JString "Decline") ] ]);
    ("account_uuid", JString "00000000-0000-4000-c025-000000000000") ].
Proof. reflexivity. Qed.

(** [execute] logs the request, parks the execution and hands back the
    input items unchanged. *)
Lemma execute_run (this : IExecuteFunctions) (h : Host) :
  execute this h =
  (Returned [ getInputData this ],
   {| logs := logs h ++
              [ {| level := Warn; text := "Starting workflow with arguments:";
                   data := JObject (requestBody this) |} ];
      waitTill := Some WAIT_INDEFINITELY |}).
Proof. reflexivity. Qed.

(** C8. On run start the request that [execute] builds (and logs before
    parking the execution) has as its callback address the resume address of
    the run, then a slash, then the identifier of the node, and as its
    actions the configured actions in declaration order, each reduced to an
    object with the single field [name]. *)
Theorem execute_request_address_and_actions (this : IExecuteFunctions) (h : Host) :
  ∃ (request : IDataObject) (h' : Host),
    execute this h = (Returned [ getInputData this ], h') ∧
    logs h' = (logs h ++ [ {| level := Warn;
                              text := "Starting workflow with arguments:";
                              data := JObject request |} ])%list ∧
    waitTill h' = Some WAIT_INDEFINITELY ∧
    js_get request "webhook_url" =
      Some (JString (evaluateExpression this "{{ $execution?.resumeUrl }}" 0
                     +:+ "/" +:+ id (getNode this))) ∧
    js_get request "actions" =
      Some (JArray ((λ a, JObject [ ("name", JString (name a)) ])
                    <$> getNodeParameter_actions_action (getNode this) [])).
Proof.
  exists (requestBody this). eexists. rewrite execute_run.
  repeat split; reflexivity.
Qed.

(** C10. Whatever the configuration and the input, the request that
    [execute] builds carries the fixed account identifier
    [00000000-0000-4000-c025-000000000000]. *)
Theorem execute_request_account_uuid (this : IExecuteFunctions) (h : Host) :
  ∃ (request : IDataObject) (h' : Host),
    execute this h = (Returned [ getInputData this ], h') ∧
    logs h' = (logs h ++ [ {| level := Warn;
                              text := "Starting workflow with arguments:";
                              data := JObject request |} ])%list ∧
    js_get request "account_uuid" =
      Some (JString "00000000-0000-4000-c025-000000000000").
Proof.
  exists (requestBody this). eexists. rewrite execute_run.
  repeat split; reflexivity.
Qed.

(** ** Resume *)

Section slots.
Implicit Types (l : list ActionParam) (items : list INodeExecutionData).

Lemma length_slots l k items : length (slots l k items) = length l.
Proof. unfold slots. by rewrite length_insert, length_fmap. Qed.

Lemma slots_lookup_eq l k items :
  (k < length l)%nat → slots l k items !! k = Some items.
Proof.
  intros Hk. unfold slots. apply list_lookup_insert_eq.
  by rewrite length_fmap.
Qed.

Lemma slots_lookup_ne l k j items :
  j ≠ k → (j < length l)%nat → slots l k items !! j = Some [].
Proof.
  intros Hne Hj. unfold slots.
  rewrite list_lookup_insert_ne by done.
  rewrite list_lookup_fmap.
  destruct (lookup_lt_is_Some_2 l j Hj) as [a ->]. done.
Qed.

Lemma slots_overwrite l k items items' :
  <[k := items']> (slots l k items) = slots l k items'.
Proof. unfold slots. apply list_insert_insert_eq. Qed.
Lemma slots_lookup_cons l k j items first rest :
  slots l k items !! j = Some (first :: rest) → j = k.
Proof.
  intros Hj. destruct (decide (j = k)) as [|Hne]; [done|].
  assert (j < length l)%nat as Hlt.
  { rewrite <- (length_slots l k items). by eapply lookup_lt_Some. }
  by rewrite slots_lookup_ne in Hj.
Qed.
End slots.

Section webhook_runs.
Variable this : IWebhookFunctions.
Variable h : Host.

Let body := getBodyData this.
Let action := js_get body "action".

Lemma webhook_no_action :
  truthy action = false →
  webhook this h = (Thrown (NodeOperationError no_action_message), received this h).
Proof.
  intros Hfalsy. unfold webhook, mbind, M_bind, bind, logger. simpl.
  fold body. fold action. by rewrite Hfalsy.
Qed.

Lemma webhook_unknown :
  truthy action = true →
  index_of this = -1 →
  webhook this h =
    (Thrown (NodeOperationError (unknown_action_message action)), received this h).
Proof.
  intros Htruthy Hindex. unfold webhook, mbind, M_bind, bind, logger. simpl.
  fold body. fold action. rewrite Htruthy. simpl.
  unfold index_of, allActions_of in Hindex. fold body action in Hindex.
  by rewrite Hindex.
Qed.

Lemma webhook_no_items k :
  truthy action = true →
  index_of this = Z.of_nat k →
  returnJsonArray this body = [] →
  webhook this h =
    (Thrown (TypeError "Cannot set properties of undefined (setting 'pairedItem')"),
     received this h).
Proof.
  intros Htruthy Hindex Hitems.
  pose proof Hindex as Hk. apply findIndex_Some in Hk as (a & Hk & _).
  apply lookup_lt_Some in Hk.
  unfold webhook, mbind, M_bind, bind, logger. simpl.
  fold body. fold action. rewrite Htruthy. simpl.
  unfold index_of, allActions_of in Hindex. fold body action in Hindex.
  rewrite Hindex.
  replace (Z.of_nat k <? 0) with false by (symmetry; apply Z.ltb_ge; lia).
  rewrite Nat2Z.id. fold (allActions_of this).
  fold (slots (allActions_of this) k (returnJsonArray this body)).
  rewrite slots_lookup_eq by done. by rewrite Hitems.
Qed.

Lemma webhook_dispatch k first rest :
  truthy action = true →
  index_of this = Z.of_nat k →
  returnJsonArray this body = first :: rest →
  webhook this h =
    (Returned {| webhookResponse := "OK";
                 workflowData := slots (allActions_of this) k (paired first :: rest) |},
     responded this (slots (allActions_of this) k (paired first :: rest)) h).
Proof.
  intros Htruthy Hindex Hitems.
  pose proof Hindex as Hk. apply findIndex_Some in Hk as (a & Hk & _).
  apply lookup_lt_Some in Hk.
  unfold webhook, mbind, M_bind, bind, logger. simpl.
  fold body. fold action. rewrite Htruthy. simpl.
  unfold index_of, allActions_of in Hindex. fold body action in Hindex.
  rewrite Hindex.
  replace (Z.of_nat k <? 0) with false by (symmetry; apply Z.ltb_ge; lia).
  rewrite Nat2Z.id. fold (allActions_of this).
  fold (slots (allActions_of this) k (returnJsonArray this body)).
  rewrite slots_lookup_eq by done. rewrite Hitems.
  fold (paired first). by rewrite slots_overwrite.
Qed.
End webhook_runs.

Lemma webhook_cases (this : IWebhookFunctions) (h : Host) : webhook_outcome this h.
Proof.
  destruct (truthy (js_get (getBodyData this) "action")) eqn:Htruthy.
  - destruct (findIndex_range
                (λ a, strict_equals (name a) (js_get (getBodyData this) "action"))
                (allActions_of this)) as [Hnone|(k & Hk & _)].
    + eapply outcome_unknown; [done..|]. by apply webhook_unknown.
    + destruct (returnJsonArray this (getBodyData this)) as [|first rest] eqn:Hitems.
      * eapply outcome_no_items; [done..|]. by eapply webhook_no_items.
      * eapply outcome_dispatch; [done..|]. by apply webhook_dispatch.
  - eapply outcome_no_action; [done|]. by apply webhook_no_action.
Qed.

(** A callback that returns did find an action and put the items there. *)
Lemma webhook_Returned_inv this h r h' :
  webhook this h = (Returned r, h') →
  ∃ k first rest,
    truthy (js_get (getBodyData this) "action") = true ∧
    index_of this = Z.of_nat k ∧
    (k < length (allActions_of this))%nat ∧
    returnJsonArray this (getBodyData this) = first :: rest ∧
    r = {| webhookResponse := "OK";
           workflowData := slots (allActions_of this) k (paired first :: rest) |}.
Proof.
  intros Hrun.
  destruct (webhook_cases this h) as [? E|? ? E|? ? ? ? E|k first rest ? Hk Hitems E];
    rewrite E in Hrun; try discriminate.
  injection Hrun as <- _. exists k, first, rest. repeat split; try done.
  apply findIndex_Some in Hk as (a & Hk & _). by eapply lookup_lt_Some.
Qed.

(** An action whose name is empty is never the one a callback resolves to
    once the callback has passed the presence test. *)
Lemma index_of_not_unnamed this k a :
  truthy (js_get (getBodyData this) "action") = true →
  allActions_of this !! k = Some a →
  name a = "" →
  index_of this ≠ Z.of_nat k.
Proof.
  intros Htruthy Hk Hname Hindex.
  apply findIndex_Some in Hindex as (a' & Hk' & Heq & _).
  rewrite Hk in Hk'. injection Hk' as <-.
  by apply (strict_equals_truthy _ _ Heq Htruthy).
Qed.

Lemma index_of_first_named this k s :
  js_get (getBodyData this) "action" = Some (JString s) →
  index_of this = Z.of_nat k ↔ first_named (allActions_of this) k s.
Proof.
  intros Haction. unfold index_of. rewrite Haction, findIndex_Some. split.
  - intros (a & Hk & Heq & Hmin). split.
    + exists a. split; [done|].
      apply strict_equals_true in Heq. congruence.
    + intros j b Hlt Hj Hname. specialize (Hmin j b Hj Hlt).
      assert (strict_equals (name b) (Some (JString s)) = true) as Heq'
        by (apply strict_equals_true; congruence).
      congruence.
  - intros [(a & Hk & Hname) Hmin]. exists a. split; [done|]. split.
    + apply strict_equals_true. congruence.
    + intros j y Hj Hlt.
      destruct (strict_equals (name y) (Some (JString s))) eqn:Heq; [|done].
      apply strict_equals_true in Heq. destruct (Hmin j y Hlt Hj). congruence.
Qed.

(** C1 (as amended). For every configured action list and every callback
    body whose [action] is a non-empty string equal to the name of the action
    at position [k], no action at a smaller position bearing that name, and
    with the host helper wrapping the body as one item: [webhook] returns,
    with one slot per configured action, slot [k] holding exactly the
    callback body paired with input item 0 and every other slot empty. *)
Theorem webhook_dispatch_first_named this h k s :
  js_get (getBodyData this) "action" = Some (JString s) →
  s ≠ "" →
  first_named (allActions_of this) k s →
  returnJsonArray this (getBodyData this) = wrap_json (getBodyData this) →
  dispatched_to this h k.
Proof.
  intros Haction Hs Hfirst Hwrap.
  assert (truthy (js_get (getBodyData this) "action") = true) as Htruthy
    by (rewrite Haction; by apply truthy_string).
  assert (index_of this = Z.of_nat k) as Hindex
    by by apply (index_of_first_named this k s Haction).
  destruct Hfirst as [(a & Hk & _) _]. apply lookup_lt_Some in Hk.
  eexists _, _. split; [by eapply webhook_dispatch|]. simpl.
  split; [done|]. split; [apply length_slots|].
  split; [by apply slots_lookup_eq|].
  intros j Hne Hj. by apply slots_lookup_ne.
Qed.

Example webhook_decline :
  fst (webhook decline_callback idle) =
  Returned {| webhookResponse := "OK";
              workflowData :=
                [ []; [ {| json := decline_body; pairedItem := Some {| item := 0 |} |} ] ] |}.
Proof. reflexivity. Qed.

Example webhook_approve :
  fst (webhook approve_callback idle) =
  Returned {| webhookResponse := "OK";
              workflowData :=
                [ [ {| json := [ ("action", JString "Approve") ];
                       pairedItem := Some {| item := 0 |} |} ]; [] ] |}.
Proof. reflexivity. Qed.

Example webhook_oops :
  fst (webhook oops_callback idle) = Thrown (NodeOperationError no_action_message).
Proof. reflexivity. Qed.

Example webhook_maybe :
  fst (webhook maybe_callback idle) = Thrown (NodeOperationError "Unknown action: Maybe").
Proof. reflexivity. Qed.

Lemma webhook_dispatch_first_named_witness : dispatched_to decline_callback idle 1.
Proof.
  apply (webhook_dispatch_first_named decline_callback idle 1 "Decline").
  - reflexivity.
  - discriminate.
  - split.
    + exists {| name := "Decline";
                other_fields := [ ("action_is_destructive", JBool true);
                                  ("gather_custom_feedback_response", JBool true) ] |}.
      split; reflexivity.
    + intros [|j] b Hlt Hj; [|lia].
      injection Hj as <-. discriminate.
  - reflexivity.
Defined.

(** C1 as first stated does not hold: with one action whose name is empty
    and a callback whose [action] is the empty string, the callback's action
    equals the name at position 0 and nothing precedes it, yet [webhook]
    throws at the presence test and routes nothing. *)
Lemma webhook_unnamed_counterexample :
  js_get (getBodyData unnamed_callback) "action" = Some (JString "") ∧
  first_named (allActions_of unnamed_callback) 0 "" ∧
  returnJsonArray unnamed_callback (getBodyData unnamed_callback) =
    wrap_json (getBodyData unnamed_callback) ∧
  webhook unnamed_callback idle =
    (Thrown (NodeOperationError no_action_message), received unnamed_callback idle) ∧
  ¬ dispatched_to unnamed_callback idle 0.
Proof.
  split; [reflexivity|]. split.
  { split; [by exists (mk_action "")|]. intros j b Hlt. lia. }
  split; [reflexivity|]. split; [reflexivity|].
  intros (r & h' & Hrun & _). discriminate Hrun.
Qed.

(** C2 (as amended). Whenever [webhook] returns, the items are in the slot
    at the position that [findIndex] resolved, whichever position that is:
    that slot is not empty and its first item is paired with input item 0,
    and every other slot is empty. Slot 0 is written only when the first
    declared action is the match. *)
Theorem webhook_writes_resolved_slot this h r h' :
  webhook this h = (Returned r, h') →
  ∃ k,
    index_of this = Z.of_nat k ∧
    (k < length (allActions_of this))%nat ∧
    (∃ first rest,
        workflowData r !! k = Some (first :: rest) ∧
        pairedItem first = Some {| item := 0 |}) ∧
    ∀ j, j ≠ k → (j < length (allActions_of this))%nat → workflowData r !! j = Some [].
Proof.
  intros (k & first & rest & _ & Hindex & Hk & _ & ->)%webhook_Returned_inv.
  exists k. split; [done|]. split; [done|]. simpl. split.
  - exists (paired first), rest. split; [by apply slots_lookup_eq|done].
  - intros j Hne Hj. by apply slots_lookup_ne.
Qed.

Lemma webhook_writes_resolved_slot_witness :
  ∃ k,
    index_of decline_callback = Z.of_nat k ∧
    (k < length (allActions_of decline_callback))%nat ∧
    (∃ first rest,
        workflowData
          {| webhookResponse := "OK";
             workflowData :=
               [ []; [ {| json := decline_body; pairedItem := Some {| item := 0 |} |} ] ] |}
          !! k = Some (first :: rest) ∧
        pairedItem first = Some {| item := 0 |}) ∧
    ∀ j, j ≠ k → (j < length (allActions_of decline_callback))%nat →
         workflowData
           {| webhookResponse := "OK";
              workflowData :=
                [ []; [ {| json := decline_body; pairedItem := Some {| item := 0 |} |} ] ] |}
           !! j = Some [].
Proof.
  apply (webhook_writes_resolved_slot decline_callback idle _
           (snd (webhook decline_callback idle))).
  reflexivity.
Defined.

(** C2 as first stated does not hold: with the actions Approve and Decline
    and a callback for Decline, the resolved position is 1, slot 0 of the
    result is empty and slot 1 holds the callback body. *)
Lemma webhook_decline_counterexample :
  index_of decline_callback = 1 ∧
  ∃ r h',
    webhook decline_callback idle = (Returned r, h') ∧
    workflowData r !! 0%nat = Some [] ∧
    workflowData r !! 1%nat =
      Some [ {| json := decline_body; pairedItem := Some {| item := 0 |} |} ].
Proof.
  split; [reflexivity|].
  exists {| webhookResponse := "OK";
            workflowData :=
              [ []; [ {| json := decline_body; pairedItem := Some {| item := 0 |} |} ] ] |},
         (snd (webhook decline_callback idle)).
  split; [reflexivity|]. split; reflexivity.
Qed.

(** C3 (as amended). For every callback body whose [action] is a non-empty
    string that is the name of no configured action, in particular for every
    such callback when no action is configured, [webhook] throws a
    [NodeOperationError] whose message is [Unknown action: ] followed by that
    string, and returns no result; only the receipt of the callback has been
    logged. *)
Theorem webhook_unknown_action this h s :
  js_get (getBodyData this) "action" = Some (JString s) →
  s ≠ "" →
  (∀ a, a ∈ allActions_of this → name a ≠ s) →
  webhook this h =
    (Thrown (NodeOperationError ("Unknown action: " +:+ s)), received this h).
Proof.
  intros Haction Hs Hnone.
  assert (truthy (js_get (getBodyData this) "action") = true) as Htruthy
    by (rewrite Haction; by apply truthy_string).
  rewrite (webhook_unknown this h Htruthy); [by rewrite Haction|].
  apply findIndex_None. intros a Ha. rewrite Haction.
  destruct (strict_equals (name a) (Some (JString s))) eqn:Heq; [|done].
  apply strict_equals_true in Heq. destruct (Hnone a Ha). congruence.
Qed.

Lemma webhook_unknown_action_witness :
  webhook maybe_callback idle =
    (Thrown (NodeOperationError ("Unknown action: " +:+ "Maybe")),
     received maybe_callback idle) ∧
  webhook (callback [] [ ("action", JString "Maybe") ]) idle =
    (Thrown (NodeOperationError ("Unknown action: " +:+ "Maybe")),
     received (callback [] [ ("action", JString "Maybe") ]) idle).
Proof.
  split.
  - apply (webhook_unknown_action maybe_callback idle "Maybe").
    + reflexivity.
    + discriminate.
    + intros a Ha. vm_compute in Ha.
      apply elem_of_cons in Ha as [->|Ha]; [discriminate|].
      apply elem_of_cons in Ha as [->|Ha]; [discriminate|].
      by apply elem_of_nil in Ha.
  - apply (webhook_unknown_action (callback [] [ ("action", JString "Maybe") ]) idle "Maybe").
    + reflexivity.
    + discriminate.
    + intros a Ha. by apply elem_of_nil in Ha.
Defined.

(** C3 as first stated does not hold: with no action configured and a
    callback whose [action] is present but is the empty string, the value
    equals no configured name, yet the error thrown is the one for a missing
    action, not the one for an unknown action. *)
Lemma webhook_no_lane_counterexample :
  js_get (getBodyData no_lane_callback) "action" = Some (JString "") ∧
  allActions_of no_lane_callback = [] ∧
  webhook no_lane_callback idle =
    (Thrown (NodeOperationError no_action_message), received no_lane_callback idle) ∧
  no_action_message ≠ "Unknown action: " +:+ js_toString (JString "").
Proof.
  split; [reflexivity|]. split; [reflexivity|]. split; [reflexivity|].
  discriminate.
Qed.

(** C4. For every callback body without an [action] field, [webhook] throws
    the [NodeOperationError] for a missing action and returns no result: the
    error is raised right after the receipt of the callback is logged, before
    the configured actions are read or any slot is built. *)
Theorem webhook_missing_action this h :
  js_get (getBodyData this) "action" = None →
  webhook this h =
    (Thrown (NodeOperationError no_action_message), received this h).
Proof.
  intros Haction. apply webhook_no_action. by rewrite Haction.
Qed.

Lemma webhook_missing_action_witness :
  webhook oops_callback idle =
    (Thrown (NodeOperationError no_action_message), received oops_callback idle).
Proof.
  apply (webhook_missing_action oops_callback idle).
  reflexivity.
Defined.

(** C5. Dispatch is first-match-by-order. Whenever [webhook] returns, the
    slot that holds the items is the smallest position whose action bears the
    callback's [action] text; and whenever the action at position [k] is the
    first one named by a callback's non-empty [action] (the host helper
    yielding at least one item), [webhook] returns with the items in slot
    [k]. With the two actions both named A and a callback for A, the items
    are in slot 0 and slot 1 is empty. *)
Theorem webhook_first_match_policy :
  (∀ this h r h' (k : nat) first rest,
      webhook this h = (Returned r, h') →
      workflowData r !! k = Some (first :: rest) →
      ∃ s,
        js_get (getBodyData this) "action" = Some (JString s) ∧
        first_named (allActions_of this) k s) ∧
  (∀ this h (k : nat) s,
      js_get (getBodyData this) "action" = Some (JString s) →
      s ≠ "" →
      first_named (allActions_of this) k s →
      returnJsonArray this (getBodyData this) ≠ [] →
      ∃ r h' first rest,
        webhook this h = (Returned r, h') ∧
        workflowData r !! k = Some (first :: rest)) ∧
  fst (webhook duplicate_callback idle) =
    Returned {| webhookResponse := "OK";
                workflowData :=
                  [ [ {| json := [ ("action", JString "A") ];
                         pairedItem := Some {| item := 0 |} |} ]; [] ] |}.
Proof.
  split; [|split; [|reflexivity]].
  - intros this h r h' k first rest Hrun Hk.
    apply webhook_Returned_inv in Hrun
      as (k' & first' & rest' & _ & Hindex & _ & _ & ->).
    simpl in Hk. apply slots_lookup_cons in Hk as ->.
    pose proof Hindex as (a & _ & Heq & _)%findIndex_Some.
    apply strict_equals_true in Heq.
    exists (name a). split; [done|].
    by apply (index_of_first_named this k' (name a) Heq).
  - intros this h k s Haction Hs Hfirst Hitems.
    assert (truthy (js_get (getBodyData this) "action") = true) as Htruthy
      by (rewrite Haction; by apply truthy_string).
    assert (index_of this = Z.of_nat k) as Hindex
      by by apply (index_of_first_named this k s Haction).
    destruct Hfirst as [(a & Hk & _) _]. apply lookup_lt_Some in Hk.
    destruct (returnJsonArray this (getBodyData this)) as [|first rest] eqn:Hret;
      [done|].
    eexists _, _, (paired first), rest.
    split; [by eapply webhook_dispatch|]. simpl. by apply slots_lookup_eq.
Qed.

Lemma webhook_first_match_policy_witness :
  ∃ s,
    js_get (getBodyData duplicate_callback) "action" = Some (JString s) ∧
    first_named (allActions_of duplicate_callback) 0 s.
Proof.
  apply (proj1 webhook_first_match_policy duplicate_callback idle
           {| webhookResponse := "OK";
              workflowData :=
                [ [ {| json := [ ("action", JString "A") ];
                       pairedItem := Some {| item := 0 |} |} ]; [] ] |}
           (snd (webhook duplicate_callback idle)) 0%nat
           {| json := [ ("action", JString "A") ]; pairedItem := Some {| item := 0 |} |}
           []).
  - reflexivity.
  - reflexivity.
Defined.

(** C9. The presence test is a truthiness test: a callback body whose
    [action] is present but is the empty string is rejected with the error
    for a missing action, which differs from the error for an unknown action.
    Hence a configured action with an empty name is never the one resolved
    for a callback that passes the test, and whenever [webhook] returns, the
    slot of such an action is empty. *)
Theorem webhook_empty_action_is_missing :
  (∀ this h,
      js_get (getBodyData this) "action" = Some (JString "") →
      webhook this h =
        (Thrown (NodeOperationError no_action_message), received this h)) ∧
  no_action_message ≠ unknown_action_message (Some (JString "")) ∧
  (∀ this k a,
      truthy (js_get (getBodyData this) "action") = true →
      allActions_of this !! k = Some a →
      name a = "" →
      index_of this ≠ Z.of_nat k) ∧
  (∀ this h r h' k a,
      webhook this h = (Returned r, h') →
      allActions_of this !! k = Some a →
      name a = "" →
      workflowData r !! k = Some []).
Proof.
  split; [|split; [|split]].
  - intros this h Haction. apply webhook_no_action. by rewrite Haction.
  - discriminate.
  - apply index_of_not_unnamed.
  - intros this h r h' k a Hrun Hk Hname.
    apply webhook_Returned_inv in Hrun
      as (k' & first & rest & Htruthy & Hindex & _ & _ & ->).
    simpl. apply slots_lookup_ne; [|by eapply lookup_lt_Some].
    intros ->. by apply (index_of_not_unnamed this k' a).
Qed.

Lemma webhook_empty_action_is_missing_witness :
  webhook unnamed_callback idle =
    (Thrown (NodeOperationError no_action_message), received unnamed_callback idle) ∧
  workflowData
    {| webhookResponse := "OK";
       workflowData :=
         [ []; [ {| json := [ ("action", JString "A") ];
                    pairedItem := Some {| item := 0 |} |} ] ] |}
    !! 0%nat = Some [].
Proof.
  destruct webhook_empty_action_is_missing as (Hmissing & _ & _ & Hslot).
  split.
  - apply (Hmissing unnamed_callback idle). reflexivity.
  - apply (Hslot (callback [ mk_action ""; mk_action "A" ] [ ("action", JString "A") ])
                 idle _
                 (snd (webhook (callback [ mk_action ""; mk_action "A" ]
                                         [ ("action", JString "A") ]) idle))
                 0%nat (mk_action "")).
    + reflexivity.
    + reflexivity.
    + reflexivity.
Defined.

(** ** Further properties of the resolver *)

Lemma decimal_inj i j : decimal i = decimal j → i = j.
Proof.
  unfold decimal. intros Heq.
  assert (∀ n, Nat.to_uint n ≠ Decimal.Nil) as Hnonnil.
  { intros n. rewrite <- (Unsigned.of_to n) at 1. rewrite Unsigned.to_of.
    apply unorm_nonnil. }
  apply Unsigned.to_uint_inj.
  pose proof (NilZero.usu _ (Hnonnil i)) as Hi.
  pose proof (NilZero.usu _ (Hnonnil j)) as Hj.
  rewrite Heq in Hi. congruence.
Qed.

Lemma actionList_getNodeParameter (node : INode) :
  getNodeParameter_actions_action node [] = actionList (parameters node).
Proof.
  unfold getNodeParameter_actions_action, actionList.
  destruct (actions (parameters node)) as [[[l|]]|]; reflexivity.
Qed.

(** X1. [configuredOutputs] yields no lane exactly when the parameters have
    no [actions] collection, or the collection has no [action] list, or that
    list is empty. *)
Theorem configuredOutputs_nil_iff (p : INodeParameters) :
  configuredOutputs p = [] ↔
  actions p = None ∨
  ∃ c, actions p = Some c ∧ (action c = None ∨ action c = Some []).
Proof.
  unfold configuredOutputs, actionList. split.
  - intros Hnil. apply (f_equal length) in Hnil. rewrite length_imap in Hnil.
    destruct (actions p) as [c|]; [|by left]. right. exists c. split; [done|].
    destruct (action c) as [[|a l]|]; simpl in Hnil; [by right|done|by left].
  - intros [->|(c & -> & [->| ->])]; reflexivity.
Qed.

Lemma configuredOutputs_nil_iff_witness :
  configuredOutputs {| subject := "s"; message := "m"; actions := None |} = [] ∧
  configuredOutputs
    {| subject := "s"; message := "m"; actions := Some {| action := None |} |} = [].
Proof.
  split.
  - apply (proj2 (configuredOutputs_nil_iff _)). left. reflexivity.
  - apply (proj2 (configuredOutputs_nil_iff _)). right.
    exists {| action := None |}. split; [reflexivity|]. left. reflexivity.
Defined.

(** X2. No lane of [configuredOutputs] has an empty display name, and every
    lane is a main connection. *)
Theorem configuredOutputs_displayName_nonempty (p : INodeParameters) (lane : Lane) :
  lane ∈ configuredOutputs p →
  displayName lane ≠ "" ∧ type lane = Main.
Proof.
  intros (i & Hi)%list_elem_of_lookup_1.
  rewrite configuredOutputs_lookup in Hi.
  destruct (actionList p !! i) as [a|]; simpl in Hi; [|done].
  injection Hi as <-. simpl. split; [|done].
  destruct (String.eqb_spec (name a) ""); [discriminate|done].
Qed.

Lemma configuredOutputs_displayName_nonempty_witness :
  displayName {| type := Main; displayName := "Action 0" |} ≠ "" ∧
  type {| type := Main; displayName := "Action 0" |} = Main.
Proof.
  apply (configuredOutputs_displayName_nonempty
           (parameters (node_with [ mk_action "" ]))).
  apply list_elem_of_here.
Defined.

(** X3. Two actions with empty names at different positions get different
    display names: the positional fallback tells them apart. *)
Theorem configuredOutputs_fallback_distinct (p : INodeParameters)
    (i j : nat) (a b : ActionParam) (lane_i lane_j : Lane) :
  i ≠ j →
  actionList p !! i = Some a →
  actionList p !! j = Some b →
  name a = "" →
  name b = "" →
  configuredOutputs p !! i = Some lane_i →
  configuredOutputs p !! j = Some lane_j →
  displayName lane_i ≠ displayName lane_j.
Proof.
  intros Hne Hi Hj Ha Hb Hlane_i Hlane_j Heq.
  rewrite configuredOutputs_lookup, Hi in Hlane_i.
  rewrite configuredOutputs_lookup, Hj in Hlane_j.
  simpl in *. injection Hlane_i as <-. injection Hlane_j as <-.
  rewrite Ha, Hb in Heq. simpl in Heq.
  apply Hne, decimal_inj. by simplify_eq.
Qed.

Lemma configuredOutputs_fallback_distinct_witness :
  configuredOutputs
    (parameters (node_with [ mk_action ""; mk_action "A"; mk_action "" ])) !! 2%nat =
    Some {| type := Main; displayName := "Action 2" |} ∧
  displayName {| type := Main; displayName := "Action 0" |} ≠
  displayName {| type := Main; displayName := "Action 2" |}.
Proof.
  split; [reflexivity|].
  apply (configuredOutputs_fallback_distinct
           (parameters (node_with [ mk_action ""; mk_action "A"; mk_action "" ]))
           0 2 (mk_action "") (mk_action "")
           {| type := Main; displayName := "Action 0" |}
           {| type := Main; displayName := "Action 2" |});
    try reflexivity.
  discriminate.
Defined.

(** X4. Appending actions to the configured list leaves the lanes of the
    actions already there unchanged: the lanes of the longer list are the
    lanes of the shorter one followed by one lane per appended action. *)
Theorem configuredOutputs_app (p q : INodeParameters) (more : list ActionParam) :
  actionList q = (actionList p ++ more)%list →
  ∃ lanes,
    configuredOutputs q = (configuredOutputs p ++ lanes)%list ∧
    length lanes = length more.
Proof.
  intros Hq. unfold configuredOutputs. rewrite Hq, imap_app.
  eexists. split; [reflexivity|]. by rewrite length_imap.
Qed.

Lemma configuredOutputs_app_witness :
  ∃ lanes,
    configuredOutputs (parameters (node_with [ mk_action "A"; mk_action "" ])) =
      (configuredOutputs (parameters (node_with [ mk_action "A" ])) ++ lanes)%list ∧
    length lanes = length [ mk_action "" ].
Proof.
  apply (configuredOutputs_app
           (parameters (node_with [ mk_action "A" ]))
           (parameters (node_with [ mk_action "A"; mk_action "" ]))
           [ mk_action "" ]).
  reflexivity.
Defined.

(** ** Further properties of the resume entry point *)

Lemma truthy_false_iff v :
  truthy v = false ↔
  v = None ∨ v = Some JNull ∨ v = Some (JBool false) ∨
  v = Some (JNumber 0) ∨ v = Some (JString "").
Proof.
  split.
  - destruct v as [[|[]|n|s| |]|]; simpl; intros Hv; try discriminate; auto.
    + apply negb_false_iff, Z.eqb_eq in Hv. subst. auto.
    + apply negb_false_iff, String.eqb_eq in Hv. subst. auto 6.
  - intros [->|[->|[->|[->| ->]]]]; reflexivity.
Qed.

(** A callback that passes the presence test, resolves to position [k] and
    is wrapped as one item is routed to lane [k]. *)
Lemma webhook_dispatched_at this h k :
  truthy (js_get (getBodyData this) "action") = true →
  index_of this = Z.of_nat k →
  returnJsonArray this (getBodyData this) = wrap_json (getBodyData this) →
  dispatched_to this h k.
Proof.
  intros Htruthy Hindex Hwrap.
  pose proof Hindex as (a & Hk & _)%findIndex_Some. apply lookup_lt_Some in Hk.
  eexists _, _. split; [by eapply webhook_dispatch|]. simpl.
  split; [done|]. split; [apply length_slots|].
  split; [by apply slots_lookup_eq|].
  intros j Hne Hj. by apply slots_lookup_ne.
Qed.

(** The action a callback resolves to bears the callback's [action] text. *)
Lemma index_of_named this k :
  index_of this = Z.of_nat k →
  ∃ a, allActions_of this !! k = Some a ∧
       js_get (getBodyData this) "action" = Some (JString (name a)).
Proof.
  intros (a & Hk & Heq & _)%findIndex_Some. exists a. split; [done|].
  by apply strict_equals_true.
Qed.

(** X5. Whenever [webhook] returns, it acknowledges with [OK] and its result
    has exactly as many slots as [configuredOutputs] declares lanes for the
    same node parameters. *)
Theorem webhook_result_arity this h r h' :
  webhook this h = (Returned r, h') →
  webhookResponse r = "OK" ∧
  length (workflowData r) = length (configuredOutputs (parameters (getNode this))).
Proof.
  intros (k & first & rest & _ & _ & _ & _ & ->)%webhook_Returned_inv. simpl.
  split; [done|].
  rewrite length_slots. unfold configuredOutputs, allActions_of.
  by rewrite length_imap, actionList_getNodeParameter.
Qed.

Lemma webhook_result_arity_witness :
  webhookResponse
    {| webhookResponse := "OK";
       workflowData :=
         [ []; [ {| json := decline_body; pairedItem := Some {| item := 0 |} |} ] ] |} = "OK" ∧
  length
    (workflowData
       {| webhookResponse := "OK";
          workflowData :=
            [ []; [ {| json := decline_body; pairedItem := Some {| item := 0 |} |} ] ] |}) =
  length (configuredOutputs (parameters (getNode decline_callback))).
Proof.
  apply (webhook_result_arity decline_callback idle _
           (snd (webhook decline_callback idle))).
  reflexivity.
Defined.

(** X6. [webhook] returns a result exactly when the body's [action] is
    truthy, the name of some configured action is strictly equal to it
    ([a.name === action]) and the host helper yields at least one item for
    the body; in every other case it throws. *)
Theorem webhook_returns_iff this h :
  (∃ r h', webhook this h = (Returned r, h')) ↔
  truthy (js_get (getBodyData this) "action") = true ∧
  (∃ a, a ∈ allActions_of this ∧
        strict_equals (name a) (js_get (getBodyData this) "action") = true) ∧
  returnJsonArray this (getBodyData this) ≠ [].
Proof.
  split.
  - intros (r & h' & Hrun).
    apply webhook_Returned_inv in Hrun
      as (k & first & rest & Htruthy & Hindex & _ & Hitems & _).
    apply findIndex_Some in Hindex as (a & Hk & Heq & _).
    split; [done|]. split; [|by rewrite Hitems].
    exists a. split; [by eapply list_elem_of_lookup_2|done].
  - intros (Htruthy & (a & Ha & Heq) & Hitems).
    destruct (findIndex_range
                (λ a, strict_equals (name a) (js_get (getBodyData this) "action"))
                (allActions_of this)) as [Hnone|(k & Hk & _)].
    + rewrite findIndex_None in Hnone. specialize (Hnone a Ha). simpl in Hnone.
      congruence.
    + destruct (returnJsonArray this (getBodyData this)) as [|first rest] eqn:Hret;
        [done|].
      eexists _, _. by eapply webhook_dispatch.
Qed.

Lemma webhook_returns_iff_witness :
  ∃ r h', webhook decline_callback idle = (Returned r, h').
Proof.
  apply (proj2 (webhook_returns_iff decline_callback idle)).
  split; [reflexivity|]. split; [|discriminate].
  exists {| name := "Decline";
            other_fields := [ ("action_is_destructive", JBool true);
                              ("gather_custom_feedback_response", JBool true) ] |}.
  split; [apply list_elem_of_further, list_elem_of_here|reflexivity].
Defined.

(** X8. [webhook] throws the missing-action error exactly when the body's
    [action] is absent, null, false, zero or the empty string. *)
Theorem webhook_missing_iff this h :
  fst (webhook this h) = Thrown (NodeOperationError no_action_message) ↔
  js_get (getBodyData this) "action" = None ∨
  js_get (getBodyData this) "action" = Some JNull ∨
  js_get (getBodyData this) "action" = Some (JBool false) ∨
  js_get (getBodyData this) "action" = Some (JNumber 0) ∨
  js_get (getBodyData this) "action" = Some (JString "").
Proof.
  rewrite <- truthy_false_iff. split.
  - intros Hrun.
    destruct (webhook_cases this h) as [Hf E|? ? E|? ? ? ? E|? ? ? ? ? ? E];
      rewrite E in Hrun; simpl in Hrun; try discriminate.
    done.
  - intros Hfalsy. by rewrite webhook_no_action.
Qed.

Lemma webhook_missing_iff_witness :
  fst (webhook (callback approve_decline [ ("action", JNull) ]) idle) =
  Thrown (NodeOperationError no_action_message).
Proof.
  apply (proj2 (webhook_missing_iff (callback approve_decline [ ("action", JNull) ]) idle)).
  right. left. reflexivity.
Defined.

(** X9. An action whose name repeats the name of an action declared before
    it never receives data: whenever [webhook] returns, its slot is empty. *)
Theorem webhook_duplicate_lane_dead this h r h' (j k : nat) (a b : ActionParam) :
  webhook this h = (Returned r, h') →
  (j < k)%nat →
  allActions_of this !! j = Some a →
  allActions_of this !! k = Some b →
  name a = name b →
  workflowData r !! k = Some [].
Proof.
  intros Hrun Hlt Hj Hk Hname.
  apply webhook_Returned_inv in Hrun
    as (k' & first & rest & _ & Hindex & _ & _ & ->).
  simpl. apply slots_lookup_ne; [|by eapply lookup_lt_Some].
  intros ->. apply findIndex_Some in Hindex as (b' & Hk' & Heq & Hmin).
  rewrite Hk in Hk'. injection Hk' as <-.
  specialize (Hmin j a Hj Hlt). simpl in Hmin. congruence.
Qed.

Lemma webhook_duplicate_lane_dead_witness :
  workflowData
    {| webhookResponse := "OK";
       workflowData :=
         [ [ {| json := [ ("action", JString "A") ];
                pairedItem := Some {| item := 0 |} |} ]; [] ] |}
    !! 1%nat = Some [].
Proof.
  apply (webhook_duplicate_lane_dead duplicate_callback idle _
           (snd (webhook duplicate_callback idle)) 0 1 (mk_action "A") (mk_action "A")).
  - reflexivity.
  - lia.
  - reflexivity.
  - reflexivity.
  - reflexivity.
Defined.

(** X10. When the configured names are pairwise distinct, every action with
    a non-empty name is reachable: a callback bearing that name is routed to
    the slot of that action (the host helper wrapping the body as one
    item). *)
Theorem webhook_distinct_names_reachable this h (k : nat) (a : ActionParam) :
  NoDup (name <$> allActions_of this) →
  allActions_of this !! k = Some a →
  name a ≠ "" →
  js_get (getBodyData this) "action" = Some (JString (name a)) →
  returnJsonArray this (getBodyData this) = wrap_json (getBodyData this) →
  dispatched_to this h k.
Proof.
  intros Hnodup Hk Hname Haction Hwrap.
  apply webhook_dispatched_at; [| |done].
  - rewrite Haction. by apply truthy_string.
  - apply (index_of_first_named this k (name a) Haction). split.
    + by exists a.
    + intros j b Hlt Hj Heq.
      assert (j = k) as ->; [|lia].
      apply (NoDup_lookup _ j k (name a) Hnodup);
        rewrite list_lookup_fmap; [rewrite Hj|rewrite Hk]; simpl; congruence.
Qed.

Lemma webhook_distinct_names_reachable_witness : dispatched_to approve_callback idle 0.
Proof.
  apply (webhook_distinct_names_reachable approve_callback idle 0
           {| name := "Approve";
              other_fields := [ ("action_is_destructive", JBool false);
                                ("gather_custom_feedback_response", JBool false) ] |}).
  - apply NoDup_cons. split.
    + intros Hin. apply list_elem_of_singleton in Hin. discriminate Hin.
    + apply NoDup_singleton.
  - reflexivity.
  - discriminate.
  - reflexivity.
  - reflexivity.
Defined.

(** The lanes of a configuration whose names, in order, are those of [l]. *)
Lemma configuredOutputs_lookup_names (raw : INodeParameters) (l : list ActionParam) i :
  name <$> actionList raw = name <$> l →
  configuredOutputs raw !! i =
  (λ a, {| type := Main;
           displayName := if String.eqb (name a) ""
                          then "Action " +:+ decimal i
                          else name a |}) <$> l !! i.
Proof.
  intros Hnames. rewrite configuredOutputs_lookup.
  assert ((name <$> actionList raw) !! i = (name <$> l) !! i) as Hi
    by by rewrite Hnames.
  rewrite !list_lookup_fmap in Hi.
  destruct (actionList raw !! i) as [a|], (l !! i) as [b|]; simpl in *; try done.
  by injection Hi as ->.
Qed.

(** X11. Request and callback round trip. Take one node, read at run start
    and at resume, whose action names are plain text, so that the names
    [configuredOutputs] receives in [raw] are the names the entry points
    read. If the request built by [execute] advertises the non-empty name
    [s] at position [k] of its actions and at no earlier position, then a
    callback whose [action] is [s] is routed to slot [k], and the lane that
    [configuredOutputs] declares at position [k] is labelled [s]. *)
Theorem request_callback_round_trip
    (exec : IExecuteFunctions) (hook : IWebhookFunctions) (raw : INodeParameters)
    (h : Host) (advertised : list JSON) (k : nat) (s : string) :
  getNode exec = getNode hook →
  name <$> actionList raw = name <$> allActions_of hook →
  js_get (requestBody exec) "actions" = Some (JArray advertised) →
  advertised !! k = Some (JObject [ ("name", JString s) ]) →
  (∀ j, (j < k)%nat → advertised !! j ≠ Some (JObject [ ("name", JString s) ])) →
  s ≠ "" →
  js_get (getBodyData hook) "action" = Some (JString s) →
  returnJsonArray hook (getBodyData hook) = wrap_json (getBodyData hook) →
  dispatched_to hook h k ∧
  displayName <$> configuredOutputs raw !! k = Some s.
Proof.
  intros Hnode Hraw Hreq Hadv Hfirst Hs Haction Hwrap.
  assert (advertised =
          (λ a, JObject [ ("name", JString (name a)) ]) <$> allActions_of hook) as ->.
  { unfold allActions_of. rewrite <- Hnode.
    change (js_get (requestBody exec) "actions") with
      (Some (JArray ((λ a, JObject [ ("name", JString (name a)) ])
                     <$> getNodeParameter_actions_action (getNode exec) []))) in Hreq.
    congruence. }
  rewrite list_lookup_fmap in Hadv.
  destruct (allActions_of hook !! k) as [a|] eqn:Hk; simpl in Hadv; [|done].
  assert (name a = s) as Hname by congruence.
  split.
  - apply webhook_dispatched_at; [| |done].
    + rewrite Haction. by apply truthy_string.
    + apply (index_of_first_named hook k s Haction). split; [by exists a|].
      intros j b Hlt Hj Hb. apply (Hfirst j Hlt).
      rewrite list_lookup_fmap, Hj. simpl. by rewrite Hb.
  - rewrite (configuredOutputs_lookup_names raw (allActions_of hook) k Hraw), Hk.
    simpl. rewrite Hname. by destruct (String.eqb_spec s "").
Qed.

Lemma request_callback_round_trip_witness :
  dispatched_to decline_callback idle 1 ∧
  displayName <$> configuredOutputs (parameters (node_with approve_decline)) !! 1%nat =
    Some "Decline".
Proof.
  apply (request_callback_round_trip run_start decline_callback
           (parameters (node_with approve_decline)) idle
           [ JObject [ ("name", JString "Approve") ];
             JObject [ ("name", JString "Decline") ] ] 1 "Decline").
  - reflexivity.
  - reflexivity.
  - reflexivity.
  - reflexivity.
  - intros [|j] Hlt; [discriminate|lia].
  - discriminate.
  - reflexivity.
  - reflexivity.
Defined.

(** X12. The only effect of [webhook] on the host is logging: it leaves the
    wait marker as it was and keeps the earlier log lines; when it throws it
    has appended the receipt line alone, and when it returns it has appended
    the receipt line and then one line carrying exactly the slots it
    returns. *)
Theorem webhook_host_effects this h :
  waitTill (snd (webhook this h)) = waitTill h ∧
  match fst (webhook this h) with
  | Returned r =>
      logs (snd (webhook this h)) =
      (logs h ++
       [ {| level := Info; text := "Webhook received";
            data := JObject (getBodyData this) |};
         {| level := Info; text := "Webhook response: ";
            data := workflowData_json (workflowData r) |} ])%list
  | Thrown _ =>
      logs (snd (webhook this h)) =
      (logs h ++
       [ {| level := Info; text := "Webhook received";
            data := JObject (getBodyData this) |} ])%list
  end.
Proof.
  destruct (webhook_cases this h) as [? E|? ? E|? ? ? ? E|? ? ? ? ? ? E];
    rewrite E; simpl; split; try done.
  by rewrite <- app_assoc.
Qed.

(** X13. Whenever [webhook] returns, the populated slot holds the items the
    host helper produced for the body, in order and with their [json]
    untouched: the first one is paired with input item 0 and the others are
    passed on as they are. *)
Theorem webhook_items_from_helper this h r h' :
  webhook this h = (Returned r, h') →
  ∃ k first rest,
    returnJsonArray this (getBodyData this) = first :: rest ∧
    workflowData r !! k =
      Some ({| json := json first; pairedItem := Some {| item := 0 |} |} :: rest).
Proof.
  intros (k & first & rest & _ & _ & Hk & Hitems & ->)%webhook_Returned_inv.
  exists k, first, rest. split; [done|]. simpl. by apply slots_lookup_eq.
Qed.

Lemma webhook_items_from_helper_witness :
  ∃ k first rest,
    returnJsonArray decline_callback (getBodyData decline_callback) = first :: rest ∧
    workflowData
      {| webhookResponse := "OK";
         workflowData :=
           [ []; [ {| json := decline_body; pairedItem := Some {| item := 0 |} |} ] ] |}
      !! k =
      Some ({| json := json first; pairedItem := Some {| item := 0 |} |} :: rest).
Proof.
  apply (webhook_items_from_helper decline_callback idle _
           (snd (webhook decline_callback idle))).
  reflexivity.
Defined.

(** X14. Data only ever arrives on the lane labelled with the callback's
    action. Take a node whose action names are plain text, so that the names
    [configuredOutputs] receives in [raw] are the names [webhook] reads:
    whenever [webhook] returns and slot [k] is not empty, the display name
    that [configuredOutputs] gives lane [k] is strictly equal to the body's
    [action]. *)
Theorem webhook_lane_label_is_action this h r h' (raw : INodeParameters)
    (k : nat) first rest :
  name <$> actionList raw = name <$> allActions_of this →
  webhook this h = (Returned r, h') →
  workflowData r !! k = Some (first :: rest) →
  ∃ lane,
    configuredOutputs raw !! k = Some lane ∧
    strict_equals (displayName lane) (js_get (getBodyData this) "action") = true.
Proof.
  intros Hraw (k' & first' & rest' & Htruthy & Hindex & _ & _ & ->)%webhook_Returned_inv Hk.
  simpl in Hk. apply slots_lookup_cons in Hk as ->.
  destruct (index_of_named this k' Hindex) as (a & Hk' & Haction).
  rewrite (configuredOutputs_lookup_names raw (allActions_of this) k' Hraw), Hk'.
  eexists. split; [reflexivity|]. simpl.
  rewrite Haction in Htruthy. apply truthy_string in Htruthy.
  destruct (String.eqb_spec (name a) ""); [done|].
  by apply strict_equals_true.
Qed.

Lemma webhook_lane_label_is_action_witness :
  ∃ lane,
    configuredOutputs (parameters (node_with approve_decline)) !! 1%nat = Some lane ∧
    strict_equals (displayName lane) (js_get (getBodyData decline_callback) "action") = true.
Proof.
  apply (webhook_lane_label_is_action decline_callback idle
           {| webhookResponse := "OK";
              workflowData :=
                [ []; [ {| json := decline_body; pairedItem := Some {| item := 0 |} |} ] ] |}
           (snd (webhook decline_callback idle))
           (parameters (node_with approve_decline)) 1
           {| json := decline_body; pairedItem := Some {| item := 0 |} |} []).
  - reflexivity.
  - reflexivity.
  - reflexivity.
Defined.

(** ** Further properties of the run start *)

(** X15. For a node whose action names are plain text, so that the names
    [configuredOutputs] receives in [raw] are the names [execute] reads, the
    request built by [execute] advertises one action per lane that
    [configuredOutputs] declares, in the same order. The advertised name is
    the lane's display name, except for an action with an empty name: there
    the request advertises the empty name while the lane is labelled with
    the positional fallback. *)
Theorem requestBody_actions_match_lanes (this : IExecuteFunctions) (raw : INodeParameters) :
  name <$> actionList raw = name <$> getNodeParameter_actions_action (getNode this) [] →
  ∃ advertised,
    js_get (requestBody this) "actions" = Some (JArray advertised) ∧
    length advertised = length (configuredOutputs raw) ∧
    ∀ (i : nat) (lane : Lane),
      configuredOutputs raw !! i = Some lane →
      advertised !! i = Some (JObject [ ("name", JString (displayName lane)) ]) ∨
      (advertised !! i = Some (JObject [ ("name", JString "") ]) ∧
       displayName lane = "Action " +:+ decimal i).
Proof.
  intros Hraw. eexists. split; [reflexivity|]. split.
  - unfold configuredOutputs. rewrite length_fmap, length_imap.
    apply (f_equal length) in Hraw. by rewrite !length_fmap in Hraw.
  - intros i lane.
    rewrite (configuredOutputs_lookup_names raw _ i Hraw), list_lookup_fmap.
    destruct (getNodeParameter_actions_action (getNode this) [] !! i) as [a|];
      simpl; [|done].
    intros [= <-]. simpl.
    destruct (String.eqb_spec (name a) "") as [->|]; [right|left]; done.
Qed.

Lemma requestBody_actions_match_lanes_witness :
  ∃ advertised,
    js_get (requestBody run_start) "actions" = Some (JArray advertised) ∧
    length advertised =
      length (configuredOutputs (parameters (node_with approve_decline))) ∧
    ∀ (i : nat) (lane : Lane),
      configuredOutputs (parameters (node_with approve_decline)) !! i = Some lane →
      advertised !! i = Some (JObject [ ("name", JString (displayName lane)) ]) ∨
      (advertised !! i = Some (JObject [ ("name", JString "") ]) ∧
       displayName lane = "Action " +:+ decimal i).
Proof.
  apply (requestBody_actions_match_lanes run_start (parameters (node_with approve_decline))).
  reflexivity.
Defined.
